(** * tox-pyenv: the [tox_get_python_executable] hook and its options

    A shallow embedding of [tox_pyenv.py].  The hook asks [pyenv which] for
    the interpreter of a test environment, optionally runs [pyenv install]
    and asks again, and otherwise either raises [PyenvWhichFailed] or
    returns [None] so that tox falls back to its own lookup.

    Everything outside the module (the PATH search of [py.path.local.sysfind],
    [subprocess.Popen] with [communicate], the [logging] module, [argparse])
    is modelled by what the module observes of it. *)

From Stdlib Require Import ZArith NArith List Bool Ascii String Lia.
From stdpp Require Import base option list strings gmap.

Local Open Scope Z_scope.

(** ** Python text *)

(** A Python 3 [str] is a sequence of code points. *)
Definition str := list N.

(** A literal of the source, character by character. *)
Definition lit (s : string) : str :=
  map (fun a => N_of_ascii a) (list_ascii_of_string s).

(** Truth value of a [str]: only the empty string is false. *)
Definition str_truthy (s : str) : bool :=
  match s with
  | [] => false
  | _ :: _ => true
  end.

Module Str.

(** [str.isspace] on one code point (CPython's [_PyUnicode_IsWhitespace]). *)
Definition isspace (c : N) : bool :=
  ((9 <=? c) && (c <=? 13)
   || (28 <=? c) && (c <=? 32)
   || (c =? 133) || (c =? 160) || (c =? 5760)
   || (8192 <=? c) && (c <=? 8202)
   || (c =? 8232) || (c =? 8233) || (c =? 8239) || (c =? 8287)
   || (c =? 12288))%N.

Fixpoint lstrip (s : str) : str :=
  match s with
  | [] => []
  | c :: s' => if isspace c then lstrip s' else s
  end.

Definition rstrip (s : str) : str := rev (lstrip (rev s)).

(** [s.strip()] with no argument. *)
Definition strip (s : str) : str := rstrip (lstrip s).

(** [s.isspace()] apart from the empty string: every code point is
    white space. *)
Definition all_space (s : str) : bool := forallb isspace s.

End Str.

(** ** The operating system as the hook sees it *)

(** [py.path.local]: the only attribute read is [strpath]. *)
Record LocalPath := { strpath : str }.

(** What [subprocess.Popen(cmd, stdout=PIPE, stderr=PIPE,
    universal_newlines=True)] followed by [pipe.communicate()] gives:
    either the launch raises [OSError], or the child runs to its end and
    leaves its return code and the two captured streams.  [returncode] is
    what [pipe.poll()] answers afterwards (negative when the child was
    killed by a signal). *)
Inductive spawn :=
| OSError
| Exited (returncode : Z) (stdout stderr : str).

(** The outside world: a state, the PATH search and process creation.  A
    child process may change the world ([pyenv install] does), the PATH
    search only reads it and answers a path or [None] without raising. *)
Class OS := {
  world : Type;
  sysfind : str -> world -> option LocalPath;
  popen : list str -> world -> spawn * world
}.

(** A world that answers the launches one after the other from a fixed
    list, whatever the command, and refuses to launch once the list is
    used up. *)
Record scripted := {
  found_on_path : option LocalPath;
  answers : list spawn
}.

Definition scripted_popen (cmd : list str) (w : scripted) : spawn * scripted :=
  match answers w with
  | [] => (OSError, w)
  | a :: rest => (a, {| found_on_path := found_on_path w; answers := rest |})
  end.

Definition ScriptedOS : OS := {|
  world := scripted;
  sysfind := fun _ w => found_on_path w;
  popen := scripted_popen
|}.

(** ** Logging, exceptions and the state threaded through the hook *)

Inductive level := DEBUG | WARNING.

(** A record handed to [LOG]: the level, the format string and its
    arguments, as [LOG.warning(msg)] and [LOG.debug(msg, *args)] pass them. *)
Record LogRecord := {
  levelname : level;
  msg : str;
  args : list str
}.

(** The exceptions the hook can end with.  [AttributeError] is what
    [out.strip()] raises on [None]. *)
Inductive exn :=
| PyenvWhichFailed (message : str)
| AttributeError.

(** How a call of the hook ends: [return v] ([None] when the body runs
    off its end) or an exception that reaches the caller. *)
Inductive result :=
| Return (v : option str)
| Raise (e : exn).

(** The hook's three outcomes in the words of the specification. *)
Definition Found (path : str) : result := Return (Some path).
Definition Deferred : result := Return None.

(** The per-testenv configuration, as far as the hook reads it. *)
Record TestenvConfig := {
  basepython : str;
  tox_pyenv_auto_install : bool;
  tox_pyenv_fallback : bool
}.

(** [subprocess.Popen] object after [communicate()]. *)
Record Popen := { returncode : Z }.

Section Hook.

Context `{OS}.

(** The world, the commands handed to [subprocess.Popen] so far (oldest
    first, launched or not) and the log records emitted so far. *)
Record state := {
  os : world;
  spawned : list (list str);
  records : list LogRecord
}.

Definition M (A : Type) : Type := state -> A * state.

#[local] Instance M_ret : MRet M := fun A a s => (a, s).
#[local] Instance M_bind : MBind M :=
  fun A B f m s => let '(a, s') := m s in f a s'.

Definition py_path_local_sysfind (name : str) : M (option LocalPath) :=
  fun s => (sysfind name (os s), s).

(** [Popen(cmd, ...)] then [communicate()]; the command is recorded
    whether or not the launch succeeds. *)
Definition subprocess_Popen_communicate (cmd : list str) : M spawn :=
  fun s =>
    let '(r, w) := popen cmd (os s) in
    (r, {| os := w; spawned := spawned s ++ [cmd]; records := records s |}).

Definition LOG_emit (r : LogRecord) : M unit :=
  fun s =>
    (tt, {| os := os s; spawned := spawned s; records := records s ++ [r] |}).

Definition LOG_warning (m : str) : M unit :=
  LOG_emit {| levelname := WARNING; msg := m; args := [] |}.

Definition LOG_debug (m : str) (a : list str) : M unit :=
  LOG_emit {| levelname := DEBUG; msg := m; args := a |}.

(** [getattr(p, 'strpath', default)] where [p] is a [LocalPath] or [None]. *)
Definition getattr_strpath (p : option LocalPath) (default : str) : str :=
  match p with
  | Some l => strpath l
  | None => default
  end.

(** [a or b] on strings. *)
Definition str_or (a b : str) : str := if str_truthy a then a else b.

(** [' '.join(xs)] *)
Fixpoint join_space (xs : list str) : str :=
  match xs with
  | [] => []
  | [x] => x
  | x :: rest => x ++ 32%N :: join_space rest
  end.

(** The nested [run_pyenv]: the tuple [(pipe, out, err, cmd)].  [cmd] is
    bound before [Popen] is called, so it is never [None] when the
    function returns. *)
Definition run_pyenv (envconfig : TestenvConfig)
    (command err_string_on_os_error log_string_on_os_error : str)
  : M (option Popen * option str * str * list str) :=
  found ← py_path_local_sysfind (lit "pyenv");
  let pyenv := str_or (getattr_strpath found (lit "pyenv")) (lit "pyenv") in
  let cmd := [pyenv; command; basepython envconfig] in
  r ← subprocess_Popen_communicate cmd;
  match r with
  | Exited rc out err => mret (Some {| returncode := rc |}, Some out, err, cmd)
  | OSError =>
      _ ← LOG_warning log_string_on_os_error;
      mret (None, None, err_string_on_os_error, cmd)
  end.

Definition command_not_found : str := lit "'pyenv': command not found".
Definition install_failed : str := lit "install failed".

Definition find_using_pyenv (envconfig : TestenvConfig) :=
  run_pyenv envconfig (lit "which") command_not_found
    (lit "pyenv doesn't seem to be installed, you probably don't want this plugin installed either.").

Definition install_using_pyenv (envconfig : TestenvConfig) :=
  run_pyenv envconfig (lit "install") install_failed
    (lit "pyenv doesn't seem to be able to install the requested python version "
     ++ basepython envconfig ++ lit ".").

(** [pipe and pipe.poll() == 0] *)
Definition exited_zero (pipe : option Popen) : bool :=
  match pipe with
  | Some p => returncode p =? 0
  | None => false
  end.

(** [return out.strip()] *)
Definition return_out_strip (out : option str) : result :=
  match out with
  | Some o => Return (Some (Str.strip o))
  | None => Raise AttributeError
  end.

Definition fallback_format : str :=
  lit "`%s` failed thru tox-pyenv plugin, falling back. STDERR: "
  ++ 34%N :: lit "%s" ++ 34%N
  :: lit " | To disable this behavior, set tox_pyenv_fallback=False in your tox.ini or use  --tox-pyenv-no-fallback on the command line.".

(** Lines 136 to 143: reached with the [err] and [cmd] of the last
    [run_pyenv] call. *)
Definition no_executable (envconfig : TestenvConfig) (err : str)
    (cmd : list str) : M result :=
  if negb (tox_pyenv_fallback envconfig)
  then mret (Raise (PyenvWhichFailed err))
  else
    _ ← LOG_debug fallback_format [join_space cmd; err];
    mret (Return None).

Definition tox_get_python_executable (envconfig : TestenvConfig) : M result :=
  '(pipe, out, err, cmd) ← find_using_pyenv envconfig;
  if exited_zero pipe then mret (return_out_strip out)
  else if tox_pyenv_auto_install envconfig then
    '(pipe, out, err, cmd) ← install_using_pyenv envconfig;
    if bool_decide (is_Some pipe) && negb (str_truthy err) then
      '(pipe, out, err, cmd) ← find_using_pyenv envconfig;
      if exited_zero pipe then mret (return_out_strip out)
      else no_executable envconfig err cmd
    else no_executable envconfig err cmd
  else no_executable envconfig err cmd.

(** A fresh call: nothing launched, nothing logged. *)
Definition start (w : world) : state :=
  {| os := w; spawned := []; records := [] |}.

(** The command [run_pyenv] builds for a sub-command in a given world. *)
Definition pyenv_cmd (envconfig : TestenvConfig) (command : str)
    (w : world) : list str :=
  [str_or (getattr_strpath (sysfind (lit "pyenv") w) (lit "pyenv")) (lit "pyenv");
   command; basepython envconfig].

End Hook.

(** ** The options: [argparse] and tox's testenv attributes *)

Module Argparse.

(** An [argparse] action of the [store_const] family: seeing one of
    [option_strings] on the command line stores [const] under [dest];
    [default] is stored when none is seen. *)
Record Action := {
  option_strings : list string;
  dest : string;
  default : bool;
  const : bool
}.

(** [action='store_false']: the constant is [False], the default is the
    one given to [add_argument]. *)
Definition store_false (opts : list string) (d : string) (dflt : bool) : Action :=
  {| option_strings := opts; dest := d; default := dflt; const := false |}.

(** [argparse.Namespace]: attribute name to value. *)
Abbreviation Namespace := (gmap string bool).

(** A default is set only for a [dest] that has no value yet. *)
Definition set_default (ns : Namespace) (a : Action) : Namespace :=
  match ns !! dest a with
  | Some _ => ns
  | None => <[dest a := default a]> ns
  end.

Definition takes (arg : string) (a : Action) : bool :=
  bool_decide (arg ∈ option_strings a).

(** One command-line argument: the action that owns the option string
    stores its constant; an argument of no action here is left to the
    rest of the host's parser. *)
Definition consume (actions : list Action) (ns : Namespace) (arg : string)
  : Namespace :=
  match List.find (takes arg) actions with
  | Some a => <[dest a := const a]> ns
  | None => ns
  end.

Definition parse_args (actions : list Action) (argv : list string) : Namespace :=
  foldl (consume actions) (foldl set_default ∅ actions) argv.

End Argparse.

Import Argparse.

(** A [testenv] attribute registered with [parser.add_testenv_attribute]:
    [postprocess] receives the command-line namespace
    ([testenv_config.config.option]) and the value read from [tox.ini];
    [None] stands for the [AttributeError] of a failed [getattr]. *)
Record TestenvAttribute := {
  name : string;
  ini_default : bool;
  postprocess : Namespace -> bool -> option bool
}.

(** tox's [Parser]: the actions of its [argparser] and the testenv
    attributes, in the order they were added. *)
Record Parser := {
  argparser : list Action;
  testenv_attributes : list TestenvAttribute
}.

Definition add_argument (a : Action) (p : Parser) : Parser :=
  {| argparser := argparser p ++ [a]; testenv_attributes := testenv_attributes p |}.

Definition add_testenv_attribute (t : TestenvAttribute) (p : Parser) : Parser :=
  {| argparser := argparser p; testenv_attributes := testenv_attributes p ++ [t] |}.

(** [a or b] on booleans. *)
Definition bool_or (a b : bool) : bool := if a then a else b.

Module NoFallback.

Definition cli_dest : string := "tox_pyenv_fallback".

Definition flag : Action :=
  store_false ["--tox-pyenv-no-fallback"; "-F"] cli_dest true.

Definition _pyenv_fallback (config_option : Namespace) (value : bool)
  : option bool :=
  cli_says ← config_option !! cli_dest;
  Some (bool_or cli_says value).

Definition _setup_no_fallback (parser : Parser) : Parser :=
  add_testenv_attribute
    {| name := cli_dest; ini_default := false; postprocess := _pyenv_fallback |}
    (add_argument flag parser).

End NoFallback.

Module AutoInstall.

Definition cli_dest : string := "tox_pyenv_auto_install".

Definition flag : Action :=
  store_false ["--tox-pyenv-auto-install"; "-I"] cli_dest false.

Definition _pyenv_auto_install (config_option : Namespace) (value : bool)
  : option bool :=
  cli_says ← config_option !! cli_dest;
  Some (bool_or cli_says value).

Definition _setup_auto_install (parser : Parser) : Parser :=
  add_testenv_attribute
    {| name := cli_dest; ini_default := false; postprocess := _pyenv_auto_install |}
    (add_argument flag parser).

End AutoInstall.

Import NoFallback AutoInstall.

Definition tox_addoption (parser : Parser) : Parser :=
  _setup_auto_install (_setup_no_fallback parser).

(** The plugin's options on a parser that has no others. *)
Definition plugin_parser : Parser :=
  tox_addoption {| argparser := []; testenv_attributes := [] |}.

(** The command-line namespace for [argv]. *)
Definition cli_option (argv : list string) : Namespace :=
  parse_args (argparser plugin_parser) argv.

(** ** What a launch left behind, for stating the properties *)

(** The launch succeeded and the child exited with code 0. *)
Definition exit_zero (r : spawn) : bool :=
  match r with
  | Exited rc _ _ => rc =? 0
  | OSError => false
  end.

(** The [pipe], [out] and [err] that [run_pyenv] returns for a launch;
    [err] is the captured stderr, or the given string when the launch
    raised [OSError]. *)
Definition pipe_of (r : spawn) : option Popen :=
  match r with
  | Exited rc _ _ => Some {| returncode := rc |}
  | OSError => None
  end.

Definition out_of (r : spawn) : option str :=
  match r with
  | Exited _ out _ => Some out
  | OSError => None
  end.

Definition err_of (on_os_error : str) (r : spawn) : str :=
  match r with
  | Exited _ _ err => err
  | OSError => on_os_error
  end.

(** [pipe and not err] after the install call, by what its launch gave. *)
Definition retry_wanted (r : spawn) : bool :=
  match r with
  | Exited _ _ err => negb (str_truthy err)
  | OSError => false
  end.

(** The same configuration with auto-install switched off or on. *)
Definition with_auto_install (b : bool) (envconfig : TestenvConfig)
  : TestenvConfig :=
  {| basepython := basepython envconfig;
     tox_pyenv_auto_install := b;
     tox_pyenv_fallback := tox_pyenv_fallback envconfig |}.

Definition which_warning : LogRecord :=
  {| levelname := WARNING;
     msg := lit "pyenv doesn't seem to be installed, you probably don't want this plugin installed either.";
     args := [] |}.

Definition install_warning (envconfig : TestenvConfig) : LogRecord :=
  {| levelname := WARNING;
     msg := lit "pyenv doesn't seem to be able to install the requested python version "
            ++ basepython envconfig ++ lit ".";
     args := [] |}.

(** The debug record of the fallback branch. *)
Definition fallback_record (cmd : list str) (err : str) : LogRecord :=
  {| levelname := DEBUG; msg := fallback_format; args := [join_space cmd; err] |}.

Section Traces.

Context `{OS}.

(** The state after one [run_pyenv] call that handed [cmd] to [Popen],
    got [r] and left the world [w]; [warn] is logged on [OSError]. *)
Definition after_launch (s : state) (cmd : list str) (r : spawn) (w : world)
    (warn : LogRecord) : state :=
  {| os := w;
     spawned := spawned s ++ [cmd];
     records := match r with
                | Exited _ _ _ => records s
                | OSError => records s ++ [warn]
                end |}.

Definition which_cmd (envconfig : TestenvConfig) (w : world) : list str :=
  pyenv_cmd envconfig (lit "which") w.

Definition install_cmd (envconfig : TestenvConfig) (w : world) : list str :=
  pyenv_cmd envconfig (lit "install") w.

End Traces.

(** A request for Python 3.9.1 and some scripted worlds. *)
Definition py391 (auto_install fallback : bool) : TestenvConfig :=
  {| basepython := lit "3.9.1";
     tox_pyenv_auto_install := auto_install;
     tox_pyenv_fallback := fallback |}.

Definition not_installed : spawn :=
  Exited 1 [] (lit "pyenv: version `3.9.1' is not installed" ++ [10%N]).

Definition python391 : str := lit "/opt/pyenv/versions/3.9.1/bin/python3.9".

Definition found391 : spawn := Exited 0 (python391 ++ [10%N]) [].

(** An install that ends with code 1 yet writes nothing to stderr, and one
    that ends with code 0 after a warning on stderr. *)
Definition quiet_failed_install : spawn := Exited 1 [] [].
Definition noisy_install : spawn :=
  Exited 0 (lit "Installed Python-3.9.1") (lit "WARNING: missing sqlite3 lib").

Definition shim_path : LocalPath := {| strpath := lit "/opt/pyenv/bin/pyenv" |}.

Definition script (found : option LocalPath) (a : list spawn)
  : state (H := ScriptedOS) :=
  start (H := ScriptedOS) {| found_on_path := found; answers := a |}.

(** The hook on scripted worlds. *)
Abbreviation hook := (tox_get_python_executable (H := ScriptedOS)).

(** The command lines of the scripted worlds that have [pyenv] on the PATH. *)
Definition pyenv391 (command : string) : list str :=
  [lit "/opt/pyenv/bin/pyenv"; lit command; lit "3.9.1"].

(** The scripted world once every answer has been given. *)
Definition used_up (found : option LocalPath) : scripted :=
  {| found_on_path := found; answers := [] |}.

(** The same configuration with fallback switched off or on. *)
Definition with_fallback (b : bool) (envconfig : TestenvConfig)
  : TestenvConfig :=
  {| basepython := basepython envconfig;
     tox_pyenv_auto_install := tox_pyenv_auto_install envconfig;
     tox_pyenv_fallback := b |}.

(** One of the option strings of [--tox-pyenv-no-fallback] is on the
    command line. *)
Definition no_fallback_given (argv : list string) : bool :=
  existsb (fun arg => takes arg NoFallback.flag) argv.

(** The executable [run_pyenv] puts in front of a command: the [strpath]
    found on the PATH when there is one and it is not empty, the bare name
    otherwise. *)
Definition pyenv_executable (found : option LocalPath) : str :=
  match found with
  | Some l => if str_truthy (strpath l) then strpath l else lit "pyenv"
  | None => lit "pyenv"
  end.

(** The warning a [run_pyenv] call logs: one record when the launch raised
    [OSError], none otherwise. *)
Definition warned (r : spawn) (warn : LogRecord) : list LogRecord :=
  match r with
  | OSError => [warn]
  | Exited _ _ _ => []
  end.

(** No white space at either end. *)
Definition trimmed (s : str) : Prop :=
  (forall c, head s = Some c -> Str.isspace c = false)
  /\ (forall c, last s = Some c -> Str.isspace c = false).

(** * Properties *)

(** ** [str.strip] *)

Lemma lstrip_all_space (s : str) : Str.all_space s = true -> Str.lstrip s = [].
Proof.
  induction s as [|c s IH]; simpl; [reflexivity|].
  intros Hall. apply andb_true_iff in Hall as [Hc Hs].
  rewrite Hc. auto.
Qed.

Lemma strip_all_space (s : str) : Str.all_space s = true -> Str.strip s = [].
Proof.
  intros Hall. unfold Str.strip, Str.rstrip.
  rewrite (lstrip_all_space s Hall). reflexivity.
Qed.

Example strip_path :
  Str.strip (lit "  /opt/py/bin/python3.9" ++ [10%N]) = lit "/opt/py/bin/python3.9".
Proof. reflexivity. Qed.

(** ** The hook *)

Section HookFacts.

Context `{OS}.

Implicit Types (envconfig : TestenvConfig) (s : state) (r : spawn).

(** One [run_pyenv] call, by what the launch gives. *)
Lemma run_pyenv_spec envconfig command e l s r w :
  popen (pyenv_cmd envconfig command (os s)) (os s) = (r, w) ->
  run_pyenv envconfig command e l s =
    (pipe_of r, out_of r, err_of e r, pyenv_cmd envconfig command (os s),
     after_launch s (pyenv_cmd envconfig command (os s)) r w
       {| levelname := WARNING; msg := l; args := [] |}).
Proof.
  intros Hp.
  unfold run_pyenv, py_path_local_sysfind, subprocess_Popen_communicate,
    mbind, M_bind, mret, M_ret.
  simpl. fold (pyenv_cmd envconfig command (os s)). rewrite Hp.
  destruct r; reflexivity.
Qed.

Lemma exited_zero_spec r : exited_zero (pipe_of r) = exit_zero r.
Proof. destruct r; reflexivity. Qed.

Lemma retry_wanted_spec r e :
  bool_decide (is_Some (pipe_of r)) && negb (str_truthy (err_of e r))
    = retry_wanted r.
Proof. destruct r; reflexivity. Qed.


(** Lines 136 to 143. *)
Lemma no_executable_spec envconfig err cmd s :
  no_executable envconfig err cmd s =
    if tox_pyenv_fallback envconfig
    then (Deferred,
          {| os := os s; spawned := spawned s;
             records := records s ++ [fallback_record cmd err] |})
    else (Raise (PyenvWhichFailed err), s).
Proof. unfold no_executable. destruct (tox_pyenv_fallback envconfig); reflexivity. Qed.

(** The whole hook, by what its (at most three) launches give.  [r2]
    and [r3] are what the install and the second [which] would give in
    the worlds the hook would run them in. *)
Lemma hook_cases envconfig s r1 w1 r2 w2 r3 w3 :
  popen (which_cmd envconfig (os s)) (os s) = (r1, w1) ->
  popen (install_cmd envconfig w1) w1 = (r2, w2) ->
  popen (which_cmd envconfig w2) w2 = (r3, w3) ->
  let s1 := after_launch s (which_cmd envconfig (os s)) r1 w1 which_warning in
  let s2 := after_launch s1 (install_cmd envconfig w1) r2 w2
              (install_warning envconfig) in
  let s3 := after_launch s2 (which_cmd envconfig w2) r3 w3 which_warning in
  tox_get_python_executable envconfig s =
    if exit_zero r1 then (return_out_strip (out_of r1), s1)
    else if tox_pyenv_auto_install envconfig then
      if retry_wanted r2 then
        if exit_zero r3 then (return_out_strip (out_of r3), s3)
        else no_executable envconfig (err_of command_not_found r3)
               (which_cmd envconfig w2) s3
      else no_executable envconfig (err_of install_failed r2)
             (install_cmd envconfig w1) s2
    else no_executable envconfig (err_of command_not_found r1)
           (which_cmd envconfig (os s)) s1.
Proof.
  intros H1 H2 H3 s1 s2 s3.
  unfold tox_get_python_executable, find_using_pyenv, install_using_pyenv,
    mbind, M_bind, mret, M_ret.
  rewrite (run_pyenv_spec _ _ _ _ _ _ _ H1). cbv beta iota.
  rewrite exited_zero_spec.
  destruct (exit_zero r1); [reflexivity|].
  destruct (tox_pyenv_auto_install envconfig); [|reflexivity].
  fold s1. rewrite (run_pyenv_spec envconfig _ _ _ s1 r2 w2 H2). cbv beta iota.
  rewrite retry_wanted_spec.
  destruct (retry_wanted r2); [|reflexivity].
  fold s2. rewrite (run_pyenv_spec envconfig _ _ _ s2 r3 w3 H3). cbv beta iota.
  rewrite exited_zero_spec.
  destruct (exit_zero r3); reflexivity.
Qed.


(** The state the hook is left in has the first [which] command right
    after what was there before, followed by at most two more commands. *)
Lemma hook_spawned envconfig s :
  exists more,
    spawned (snd (tox_get_python_executable envconfig s))
      = spawned s ++ which_cmd envconfig (os s) :: more
    /\ (length more <= 2)%nat.
Proof.
  destruct (popen (which_cmd envconfig (os s)) (os s)) as [r1 w1] eqn:H1.
  destruct (popen (install_cmd envconfig w1) w1) as [r2 w2] eqn:H2.
  destruct (popen (which_cmd envconfig w2) w2) as [r3 w3] eqn:H3.
  rewrite (hook_cases _ _ _ _ _ _ _ _ H1 H2 H3). cbv zeta.
  rewrite !no_executable_spec.
  destruct (exit_zero r1); [exists []; simpl; split; [reflexivity|lia]|].
  destruct (tox_pyenv_auto_install envconfig), (tox_pyenv_fallback envconfig);
    try (exists []; simpl; split; [reflexivity|lia]);
    destruct (retry_wanted r2);
    try (exists [install_cmd envconfig w1]; simpl; rewrite <- app_assoc;
         split; [reflexivity|lia]);
    destruct (exit_zero r3);
    exists [install_cmd envconfig w1; which_cmd envconfig w2]; simpl;
    rewrite <- !app_assoc; split; try reflexivity; lia.
Qed.

(** C1: when the first [pyenv which] is launched and exits with code 0,
    the hook returns the stripped stdout, whatever the two flags are, and
    the only command handed to [Popen] is that [which]: no install is
    attempted. *)
Theorem which_exit_zero_found envconfig s out err w :
  popen (which_cmd envconfig (os s)) (os s) = (Exited 0 out err, w) ->
  tox_get_python_executable envconfig s =
    (Found (Str.strip out),
     {| os := w;
        spawned := spawned s ++ [which_cmd envconfig (os s)];
        records := records s |}).
Proof.
  intros Hp.
  unfold tox_get_python_executable, find_using_pyenv, mbind, M_bind.
  rewrite (run_pyenv_spec _ _ _ _ _ _ _ Hp). reflexivity.
Qed.

(** C2: when the first [pyenv which] exits non-zero or cannot be launched
    and auto-install is off, the hook returns [None] (Deferred) if
    fallback is on, and raises [PyenvWhichFailed] if it is off; the
    message is the [err] of that call: the captured stderr, or the
    synthesized string when the launch failed.  Only the [which] was
    handed to [Popen]. *)
Theorem which_failed_no_auto_install envconfig s r w :
  popen (which_cmd envconfig (os s)) (os s) = (r, w) ->
  exit_zero r = false ->
  tox_pyenv_auto_install envconfig = false ->
  (tox_pyenv_fallback envconfig = true ->
     fst (tox_get_python_executable envconfig s) = Deferred)
  /\ (tox_pyenv_fallback envconfig = false ->
        fst (tox_get_python_executable envconfig s)
          = Raise (PyenvWhichFailed (err_of command_not_found r)))
  /\ (forall rc out err, r = Exited rc out err ->
        err_of command_not_found r = err)
  /\ spawned (snd (tox_get_python_executable envconfig s))
       = spawned s ++ [which_cmd envconfig (os s)].
Proof.
  intros Hp Hz Hauto.
  destruct (popen (install_cmd envconfig w) w) as [r2 w2] eqn:H2.
  destruct (popen (which_cmd envconfig w2) w2) as [r3 w3] eqn:H3.
  rewrite (hook_cases _ _ _ _ _ _ _ _ Hp H2 H3). cbv zeta.
  rewrite Hz, Hauto, no_executable_spec.
  repeat split.
  - intros ->. reflexivity.
  - intros ->. reflexivity.
  - intros rc out err ->. reflexivity.
  - destruct (tox_pyenv_fallback envconfig); reflexivity.
Qed.

(** C3: when the first [which] fails, auto-install is on, the install is
    launched and leaves an empty stderr, and the second [which] exits
    with code 0, the hook returns the stripped stdout of the second
    [which]. *)
Theorem install_then_found envconfig s r1 w1 rc2 out2 w2 out3 err3 w3 :
  popen (which_cmd envconfig (os s)) (os s) = (r1, w1) ->
  exit_zero r1 = false ->
  tox_pyenv_auto_install envconfig = true ->
  popen (install_cmd envconfig w1) w1 = (Exited rc2 out2 [], w2) ->
  popen (which_cmd envconfig w2) w2 = (Exited 0 out3 err3, w3) ->
  fst (tox_get_python_executable envconfig s) = Found (Str.strip out3).
Proof.
  intros H1 Hz Hauto H2 H3.
  rewrite (hook_cases _ _ _ _ _ _ _ _ H1 H2 H3). cbv zeta.
  rewrite Hz, Hauto. reflexivity.
Qed.

(** C4, as amended: when the first [which] fails, auto-install is on,
    and the install cannot be launched, writes to stderr, or the second
    [which] fails too, the hook ends the way it does with auto-install
    off: [None] when fallback is on, [PyenvWhichFailed] when it is off.
    The message raised is the [err] of the last call made (the install's
    when there was no retry, the second [which]'s otherwise), where with
    auto-install off it is the [err] of the first [which]. *)
Theorem auto_install_failure_falls_through envconfig s r1 w1 r2 w2 r3 w3 :
  popen (which_cmd envconfig (os s)) (os s) = (r1, w1) ->
  popen (install_cmd envconfig w1) w1 = (r2, w2) ->
  popen (which_cmd envconfig w2) w2 = (r3, w3) ->
  exit_zero r1 = false ->
  tox_pyenv_auto_install envconfig = true ->
  retry_wanted r2 = false \/ exit_zero r3 = false ->
  (tox_pyenv_fallback envconfig = true ->
     fst (tox_get_python_executable envconfig s) = Deferred
     /\ fst (tox_get_python_executable (with_auto_install false envconfig) s)
          = Deferred)
  /\ (tox_pyenv_fallback envconfig = false ->
        fst (tox_get_python_executable envconfig s)
          = Raise (PyenvWhichFailed
                     (if retry_wanted r2
                      then err_of command_not_found r3
                      else err_of install_failed r2))
        /\ fst (tox_get_python_executable (with_auto_install false envconfig) s)
             = Raise (PyenvWhichFailed (err_of command_not_found r1))).
Proof.
  intros H1 H2 H3 Hz Hauto Hfail.
  rewrite (hook_cases _ _ _ _ _ _ _ _ H1 H2 H3).
  rewrite (hook_cases (with_auto_install false envconfig) _ _ _ _ _ _ _ H1 H2 H3).
  cbv zeta. simpl tox_pyenv_auto_install. cbv iota.
  rewrite Hz, Hauto, !no_executable_spec. simpl tox_pyenv_fallback.
  split; intros ->.
  - destruct Hfail as [-> | Hf].
    + split; reflexivity.
    + rewrite Hf. destruct (retry_wanted r2); split; reflexivity.
  - destruct Hfail as [-> | Hf].
    + split; reflexivity.
    + rewrite Hf. destruct (retry_wanted r2); split; reflexivity.
Qed.

(** C6, as amended: a call hands at most three commands to [Popen] (the
    first [which], then possibly the install, then possibly the second
    [which]) and at least one. *)
Theorem at_most_three_launches envconfig s :
  (length (spawned s) + 1
     <= length (spawned (snd (tox_get_python_executable envconfig s)))
     <= length (spawned s) + 3)%nat.
Proof.
  destruct (hook_spawned envconfig s) as (more & -> & Hlen).
  rewrite length_app. simpl. lia.
Qed.

(** C7, as amended: when the PATH search finds no [pyenv], the first
    command handed to [Popen] is the literal [pyenv which <basepython>],
    whatever the flags; when this launch raises [OSError] and
    auto-install is off, the hook raises [PyenvWhichFailed] with the
    message ['pyenv': command not found] if fallback is off, and returns
    [None] after logging that message if fallback is on. *)
Theorem pyenv_not_on_path envconfig s :
  sysfind (lit "pyenv") (os s) = None ->
  spawned (snd (tox_get_python_executable envconfig s)) !! length (spawned s)
    = Some [lit "pyenv"; lit "which"; basepython envconfig]
  /\ forall w,
       popen [lit "pyenv"; lit "which"; basepython envconfig] (os s)
         = (OSError, w) ->
       tox_pyenv_auto_install envconfig = false ->
       (tox_pyenv_fallback envconfig = false ->
          fst (tox_get_python_executable envconfig s)
            = Raise (PyenvWhichFailed command_not_found))
       /\ (tox_pyenv_fallback envconfig = true ->
             fst (tox_get_python_executable envconfig s) = Deferred
             /\ last (records (snd (tox_get_python_executable envconfig s)))
                  = Some (fallback_record
                            [lit "pyenv"; lit "which"; basepython envconfig]
                            command_not_found)).
Proof.
  intros Hfind.
  assert (Hcmd : which_cmd envconfig (os s)
                 = [lit "pyenv"; lit "which"; basepython envconfig]).
  { unfold which_cmd, pyenv_cmd. rewrite Hfind. reflexivity. }
  split.
  - destruct (hook_spawned envconfig s) as (more & -> & _).
    rewrite Hcmd.
    rewrite lookup_app_r by lia. rewrite Nat.sub_diag. reflexivity.
  - intros w Hp Hauto. rewrite <- Hcmd in Hp.
    destruct (popen (install_cmd envconfig w) w) as [r2 w2] eqn:H2.
    destruct (popen (which_cmd envconfig w2) w2) as [r3 w3] eqn:H3.
    rewrite (hook_cases _ _ _ _ _ _ _ _ Hp H2 H3). cbv zeta.
    rewrite Hauto, no_executable_spec, Hcmd. simpl exit_zero. cbv iota.
    split; intros ->; [reflexivity|].
    split; [reflexivity|]. simpl. apply last_snoc.
Qed.

(** C9: when the first [which] exits with code 0 and its stdout is empty
    or all white space, the hook returns the empty string as the path. *)
Theorem which_exit_zero_blank envconfig s out err w :
  popen (which_cmd envconfig (os s)) (os s) = (Exited 0 out err, w) ->
  Str.all_space out = true ->
  fst (tox_get_python_executable envconfig s) = Found [].
Proof.
  intros Hp Hblank.
  unfold tox_get_python_executable, find_using_pyenv, mbind, M_bind.
  rewrite (run_pyenv_spec _ _ _ _ _ _ _ Hp). simpl.
  rewrite (strip_all_space out Hblank). reflexivity.
Qed.

(** C10: after a failed first [which] with auto-install on, the second
    [which] is run exactly when the install was launched and its stderr
    is empty, whatever its return code: an install with any return code
    and an empty stderr is followed by the retry, an install with any
    return code (0 too) and a non-empty stderr is not, and neither is an
    install that could not be launched. *)
Theorem retry_ignores_install_returncode envconfig s r1 w1 r2 w2 :
  popen (which_cmd envconfig (os s)) (os s) = (r1, w1) ->
  exit_zero r1 = false ->
  tox_pyenv_auto_install envconfig = true ->
  popen (install_cmd envconfig w1) w1 = (r2, w2) ->
  let after := spawned (snd (tox_get_python_executable envconfig s)) in
  let first_two := [which_cmd envconfig (os s); install_cmd envconfig w1] in
  (forall rc out, r2 = Exited rc out [] ->
     after = spawned s ++ first_two ++ [which_cmd envconfig w2])
  /\ (forall rc out err, r2 = Exited rc out err -> err <> [] ->
        after = spawned s ++ first_two)
  /\ (r2 = OSError -> after = spawned s ++ first_two).
Proof.
  intros H1 Hz Hauto H2 after first_two. subst after first_two.
  destruct (popen (which_cmd envconfig w2) w2) as [r3 w3] eqn:H3.
  rewrite (hook_cases _ _ _ _ _ _ _ _ H1 H2 H3). cbv zeta.
  rewrite Hz, Hauto, !no_executable_spec.
  repeat split.
  - intros rc out ->. simpl retry_wanted. cbv iota.
    destruct (exit_zero r3), (tox_pyenv_fallback envconfig); simpl;
      rewrite <- !app_assoc; reflexivity.
  - intros rc out err -> Herr. destruct err as [|c err]; [congruence|].
    simpl retry_wanted. cbv iota.
    destruct (tox_pyenv_fallback envconfig); simpl;
      rewrite <- !app_assoc; reflexivity.
  - intros ->. simpl retry_wanted. cbv iota.
    destruct (tox_pyenv_fallback envconfig); simpl;
      rewrite <- !app_assoc; reflexivity.
Qed.

End HookFacts.

(** ** The hook on scripted worlds *)

Lemma which_exit_zero_found_witness :
  hook (py391 true false) (script (Some shim_path) [found391])
    = (Found python391,
       @Build_state ScriptedOS (used_up (Some shim_path)) [pyenv391 "which"] []).
Proof.
  apply (which_exit_zero_found (H := ScriptedOS) (py391 true false)
           (script (Some shim_path) [found391])
           (python391 ++ [10%N]) [] (used_up (Some shim_path))).
  reflexivity.
Defined.

Lemma which_failed_no_auto_install_witness :
  fst (hook (py391 false false) (script (Some shim_path) [not_installed]))
    = Raise (PyenvWhichFailed
               (lit "pyenv: version `3.9.1' is not installed" ++ [10%N])).
Proof.
  apply (which_failed_no_auto_install (H := ScriptedOS) (py391 false false)
           (script (Some shim_path) [not_installed])
           not_installed (used_up (Some shim_path))
           eq_refl eq_refl eq_refl).
  reflexivity.
Defined.

Lemma install_then_found_witness :
  fst (hook (py391 true false)
         (script (Some shim_path) [not_installed; quiet_failed_install; found391]))
    = Found python391.
Proof.
  apply (install_then_found (H := ScriptedOS) (py391 true false)
           (script (Some shim_path) [not_installed; quiet_failed_install; found391])
           not_installed
           {| found_on_path := Some shim_path;
              answers := [quiet_failed_install; found391] |}
           1 []
           {| found_on_path := Some shim_path; answers := [found391] |}
           (python391 ++ [10%N]) [] (used_up (Some shim_path)));
    reflexivity.
Defined.

(** C4, against the claim as stated: the first [which] fails with pyenv's
    message on stderr and the install cannot be launched.  With
    auto-install on and fallback off the error raised carries
    [install failed]; with auto-install off it carries the stderr of the
    [which]. *)
Lemma auto_install_changes_message :
  exit_zero not_installed = false
  /\ fst (scripted_popen (pyenv391 "install") (used_up (Some shim_path))) = OSError
  /\ fst (hook (py391 true false) (script (Some shim_path) [not_installed]))
       = Raise (PyenvWhichFailed (lit "install failed"))
  /\ fst (hook (py391 false false) (script (Some shim_path) [not_installed]))
       = Raise (PyenvWhichFailed
                  (lit "pyenv: version `3.9.1' is not installed" ++ [10%N]))
  /\ fst (hook (py391 true false) (script (Some shim_path) [not_installed]))
       <> fst (hook (with_auto_install false (py391 true false))
                 (script (Some shim_path) [not_installed])).
Proof.
  repeat split; try reflexivity. vm_compute. discriminate.
Qed.

Lemma auto_install_failure_falls_through_witness :
  fst (hook (py391 true false)
         (script (Some shim_path) [not_installed; noisy_install]))
    = Raise (PyenvWhichFailed (lit "WARNING: missing sqlite3 lib"))
  /\ fst (hook (py391 false false)
            (script (Some shim_path) [not_installed; noisy_install]))
       = Raise (PyenvWhichFailed
                  (lit "pyenv: version `3.9.1' is not installed" ++ [10%N])).
Proof.
  apply (auto_install_failure_falls_through (H := ScriptedOS) (py391 true false)
           (script (Some shim_path) [not_installed; noisy_install])
           not_installed
           {| found_on_path := Some shim_path; answers := [noisy_install] |}
           noisy_install (used_up (Some shim_path))
           OSError (used_up (Some shim_path))
           eq_refl eq_refl eq_refl eq_refl eq_refl (or_introl eq_refl)).
  reflexivity.
Defined.

(** C6, against the claim as stated: a failed [which], a quiet install and
    a second [which] are three launched processes. *)
Lemma three_processes_launched :
  spawned (snd (hook (py391 true true)
                  (script (Some shim_path)
                     [not_installed; quiet_failed_install; found391])))
    = [pyenv391 "which"; pyenv391 "install"; pyenv391 "which"]
  /\ ~ (length (spawned (snd (hook (py391 true true)
                                (script (Some shim_path)
                                   [not_installed; quiet_failed_install; found391]))))
        <= 2)%nat.
Proof.
  split; [reflexivity|]. vm_compute. lia.
Qed.

(** C7, against the claim as stated: no [pyenv] on the PATH, no launch
    succeeds, auto-install on and fallback off.  The install is tried after
    the [which], and the error raised carries [install failed], not the
    message of the [which]. *)
Lemma pyenv_missing_with_auto_install :
  sysfind (OS := ScriptedOS) (lit "pyenv") (os (script None [])) = None
  /\ popen (OS := ScriptedOS) [lit "pyenv"; lit "which"; lit "3.9.1"]
       (os (script None [])) = (OSError, used_up None)
  /\ fst (hook (py391 true false) (script None []))
       = Raise (PyenvWhichFailed (lit "install failed"))
  /\ fst (hook (py391 true false) (script None []))
       <> Raise (PyenvWhichFailed (lit "'pyenv': command not found")).
Proof.
  repeat split; try reflexivity. vm_compute. discriminate.
Qed.

Lemma pyenv_not_on_path_witness :
  spawned (snd (hook (py391 false false) (script None []))) !! 0%nat
    = Some [lit "pyenv"; lit "which"; lit "3.9.1"]
  /\ fst (hook (py391 false false) (script None []))
       = Raise (PyenvWhichFailed (lit "'pyenv': command not found")).
Proof.
  destruct (pyenv_not_on_path (H := ScriptedOS) (py391 false false)
              (script None []) eq_refl) as [Hfirst Hfail].
  split; [exact Hfirst|].
  apply (Hfail (used_up None) eq_refl eq_refl). reflexivity.
Defined.

Lemma which_exit_zero_blank_witness :
  fst (hook (py391 false true)
         (script (Some shim_path) [Exited 0 (lit "  " ++ [9%N; 10%N]) []]))
    = Found [].
Proof.
  apply (which_exit_zero_blank (H := ScriptedOS) (py391 false true)
           (script (Some shim_path) [Exited 0 (lit "  " ++ [9%N; 10%N]) []])
           (lit "  " ++ [9%N; 10%N]) [] (used_up (Some shim_path)));
    reflexivity.
Defined.

Lemma retry_ignores_install_returncode_witness :
  spawned (snd (hook (py391 true true)
                  (script (Some shim_path) [not_installed; quiet_failed_install])))
    = [pyenv391 "which"; pyenv391 "install"; pyenv391 "which"].
Proof.
  apply (retry_ignores_install_returncode (H := ScriptedOS) (py391 true true)
           (script (Some shim_path) [not_installed; quiet_failed_install])
           not_installed
           {| found_on_path := Some shim_path; answers := [quiet_failed_install] |}
           quiet_failed_install (used_up (Some shim_path))
           eq_refl eq_refl eq_refl eq_refl) with (rc := 1) (out := []).
  reflexivity.
Defined.

(** An install that exits with code 0 after writing to stderr is not
    followed by a second [which]. *)
Example noisy_install_no_retry :
  spawned (snd (hook (py391 true true)
                  (script (Some shim_path) [not_installed; noisy_install; found391])))
    = [pyenv391 "which"; pyenv391 "install"].
Proof. reflexivity. Qed.

(** ** The options *)

Example cli_I : cli_option ["--tox-pyenv-auto-install"] !! AutoInstall.cli_dest = Some false.
Proof. vm_compute. reflexivity. Qed.
Example cli_F : cli_option ["-F"] !! NoFallback.cli_dest = Some false.
Proof. vm_compute. reflexivity. Qed.
Example cli_none : cli_option [] !! NoFallback.cli_dest = Some true.
Proof. vm_compute. reflexivity. Qed.


Lemma plugin_actions : argparser plugin_parser = [NoFallback.flag; AutoInstall.flag].
Proof. reflexivity. Qed.

Lemma dests_differ : NoFallback.cli_dest <> AutoInstall.cli_dest.
Proof. discriminate. Qed.

(** An argument either belongs to one of the two flags, which then stores
    [False] under its own [dest], or changes nothing. *)
Lemma consume_cases (ns : Namespace) (arg : string) :
  consume (argparser plugin_parser) ns arg = <[NoFallback.cli_dest := false]> ns
  \/ consume (argparser plugin_parser) ns arg = <[AutoInstall.cli_dest := false]> ns
  \/ consume (argparser plugin_parser) ns arg = ns.
Proof.
  unfold consume. rewrite plugin_actions. simpl.
  destruct (takes arg NoFallback.flag); [left; reflexivity|].
  destruct (takes arg AutoInstall.flag); [right; left; reflexivity|].
  right; right; reflexivity.
Qed.

Lemma consume_keeps_auto_install_false (ns : Namespace) (arg : string) :
  ns !! AutoInstall.cli_dest = Some false ->
  consume (argparser plugin_parser) ns arg !! AutoInstall.cli_dest = Some false.
Proof.
  intros Hns. destruct (consume_cases ns arg) as [-> | [-> | ->]].
  - rewrite lookup_insert_ne; [exact Hns | exact dests_differ].
  - apply lookup_insert_eq.
  - exact Hns.
Qed.

Lemma consume_keeps_attribute (ns : Namespace) (arg k : string) :
  is_Some (ns !! k) ->
  is_Some (consume (argparser plugin_parser) ns arg !! k).
Proof.
  intros Hk.
  destruct (consume_cases ns arg) as [-> | [-> | ->]];
    try exact Hk; apply lookup_insert_is_Some'; right; exact Hk.
Qed.

Lemma foldl_consume_invariant (P : Namespace -> Prop) :
  (forall ns arg, P ns -> P (consume (argparser plugin_parser) ns arg)) ->
  forall argv ns, P ns -> P (foldl (consume (argparser plugin_parser)) ns argv).
Proof.
  intros Hstep argv. induction argv as [|arg argv IH]; simpl; auto.
Qed.

(** Whatever the command line, the namespace has both attributes, so the
    [getattr] of the two [postprocess] functions does not fail. *)
Lemma cli_option_has_both (argv : list string) :
  is_Some (cli_option argv !! NoFallback.cli_dest)
  /\ is_Some (cli_option argv !! AutoInstall.cli_dest).
Proof.
  unfold cli_option, parse_args.
  split;
    apply (foldl_consume_invariant (fun ns => is_Some (ns !! _)));
    try (intros ns arg; apply consume_keeps_attribute);
    vm_compute; eauto.
Qed.

(** C5, against the code: the flag is declared with [action='store_false']
    and [default=False], so the parsed [tox_pyenv_auto_install] is [False]
    on every command line, with [--tox-pyenv-auto-install] or [-I] as
    without, and the value a test environment gets is the one of its
    [tox.ini] alone. *)
Theorem auto_install_flag_stores_false (argv : list string) (value : bool) :
  cli_option argv !! AutoInstall.cli_dest = Some false
  /\ _pyenv_auto_install (cli_option argv) value = Some value.
Proof.
  assert (Hcli : cli_option argv !! AutoInstall.cli_dest = Some false).
  { unfold cli_option, parse_args.
    apply (foldl_consume_invariant
             (fun ns => ns !! AutoInstall.cli_dest = Some false)).
    - apply consume_keeps_auto_install_false.
    - vm_compute. reflexivity. }
  split; [exact Hcli|].
  unfold _pyenv_auto_install. rewrite Hcli. reflexivity.
Qed.

(** C8: for both options the value a test environment gets is the
    command-line value [or] the [tox.ini] value: it is true exactly when
    one of the two is. *)
Theorem effective_value_is_or (config_option : Namespace)
    (cli_fallback cli_auto_install value_fallback value_auto_install : bool) :
  config_option !! NoFallback.cli_dest = Some cli_fallback ->
  config_option !! AutoInstall.cli_dest = Some cli_auto_install ->
  exists fallback auto_install,
    _pyenv_fallback config_option value_fallback = Some fallback
    /\ (fallback = true <-> cli_fallback = true \/ value_fallback = true)
    /\ _pyenv_auto_install config_option value_auto_install = Some auto_install
    /\ (auto_install = true
        <-> cli_auto_install = true \/ value_auto_install = true).
Proof.
  intros Hf Ha.
  exists (bool_or cli_fallback value_fallback),
         (bool_or cli_auto_install value_auto_install).
  unfold _pyenv_fallback, _pyenv_auto_install. rewrite Hf, Ha. simpl.
  repeat split; try tauto;
    destruct cli_fallback, cli_auto_install, value_fallback, value_auto_install;
    simpl; intuition congruence.
Qed.

Lemma effective_value_is_or_witness :
  exists fallback auto_install,
    _pyenv_fallback (cli_option ["-F"]) true = Some fallback
    /\ (fallback = true <-> false = true \/ true = true)
    /\ _pyenv_auto_install (cli_option ["-F"]) false = Some auto_install
    /\ (auto_install = true <-> false = true \/ false = true).
Proof.
  apply (effective_value_is_or (cli_option ["-F"]) false false true false).
  - vm_compute. reflexivity.
  - vm_compute. reflexivity.
Defined.


(** * Further properties *)

(** ** [str.strip] *)

Lemma lstrip_decompose (s : str) :
  exists pre, s = pre ++ Str.lstrip s /\ Str.all_space pre = true.
Proof.
  induction s as [|c s (pre & Hs & Hpre)]; simpl.
  - exists []. split; reflexivity.
  - destruct (Str.isspace c) eqn:Hc.
    + exists (c :: pre). simpl. rewrite Hc, Hpre. split; [congruence|reflexivity].
    + exists []. split; reflexivity.
Qed.

Lemma lstrip_head (s : str) (c : N) :
  head (Str.lstrip s) = Some c -> Str.isspace c = false.
Proof.
  induction s as [|d s IH]; simpl; [discriminate|].
  destruct (Str.isspace d) eqn:Hd; [exact IH|].
  simpl. intros [= <-]. exact Hd.
Qed.

Lemma all_space_rev (s : str) : Str.all_space (rev s) = Str.all_space s.
Proof.
  unfold Str.all_space. induction s as [|c s IH]; simpl; [reflexivity|].
  rewrite forallb_app, IH. simpl. rewrite andb_true_r. apply andb_comm.
Qed.

Lemma head_rev (s : str) : head (rev s) = last s.
Proof.
  destruct s as [|c s] using rev_ind; [reflexivity|].
  rewrite rev_app_distr, last_snoc. reflexivity.
Qed.

Lemma last_rev (s : str) : last (rev s) = head s.
Proof. rewrite <- (rev_involutive s) at 2. symmetry. apply head_rev. Qed.

Lemma rstrip_decompose (s : str) :
  exists post, s = Str.rstrip s ++ post /\ Str.all_space post = true.
Proof.
  destruct (lstrip_decompose (rev s)) as (pre & Hs & Hpre).
  exists (rev pre). split.
  - unfold Str.rstrip. rewrite <- rev_app_distr, <- Hs. symmetry. apply rev_involutive.
  - rewrite all_space_rev. exact Hpre.
Qed.

Lemma rstrip_last (s : str) (c : N) :
  last (Str.rstrip s) = Some c -> Str.isspace c = false.
Proof. unfold Str.rstrip. rewrite last_rev. apply lstrip_head. Qed.

Lemma lstrip_fixed (s : str) :
  (forall c, head s = Some c -> Str.isspace c = false) -> Str.lstrip s = s.
Proof.
  destruct s as [|c s]; simpl; [reflexivity|].
  intros Hh. rewrite (Hh c eq_refl). reflexivity.
Qed.

Lemma rstrip_fixed (s : str) :
  (forall c, last s = Some c -> Str.isspace c = false) -> Str.rstrip s = s.
Proof.
  intros Hl. unfold Str.rstrip. rewrite lstrip_fixed.
  - apply rev_involutive.
  - intros c. rewrite head_rev. apply Hl.
Qed.

(** What [strip] returns has no white space at either end. *)
Lemma strip_trimmed (s : str) : trimmed (Str.strip s).
Proof.
  split; intros c Hc.
  - unfold Str.strip in Hc.
    destruct (rstrip_decompose (Str.lstrip s)) as (post & Hs & _).
    apply (lstrip_head s). rewrite Hs.
    destruct (Str.rstrip (Str.lstrip s)); [discriminate|exact Hc].
  - apply (rstrip_last (Str.lstrip s)). exact Hc.
Qed.

(** [strip] only removes white space, and only at the two ends. *)
Lemma strip_decompose (s : str) :
  exists pre post,
    s = pre ++ Str.strip s ++ post
    /\ Str.all_space pre = true /\ Str.all_space post = true.
Proof.
  destruct (lstrip_decompose s) as (pre & Hs & Hpre).
  destruct (rstrip_decompose (Str.lstrip s)) as (post & Ht & Hpost).
  exists pre, post. unfold Str.strip. rewrite <- Ht. auto.
Qed.

(** A string with no white space at either end is left as it is. *)
Lemma strip_fixed (s : str) : trimmed s -> Str.strip s = s.
Proof.
  intros [Hh Hl]. unfold Str.strip.
  rewrite (lstrip_fixed s Hh). apply rstrip_fixed. exact Hl.
Qed.

(** ** The fallback flag on the command line *)

Lemma consume_fallback (ns : Namespace) (arg : string) (b : bool) :
  ns !! NoFallback.cli_dest = Some b ->
  consume (argparser plugin_parser) ns arg !! NoFallback.cli_dest
    = Some (b && negb (takes arg NoFallback.flag)).
Proof.
  intros Hns. unfold consume. rewrite plugin_actions. simpl.
  destruct (takes arg NoFallback.flag); simpl.
  - rewrite lookup_insert_eq, andb_false_r. reflexivity.
  - rewrite andb_true_r.
    destruct (takes arg AutoInstall.flag); [|exact Hns].
    rewrite lookup_insert_ne; [exact Hns|].
    intros Heq. symmetry in Heq. exact (dests_differ Heq).
Qed.

Lemma foldl_consume_fallback (argv : list string) (ns : Namespace) (b : bool) :
  ns !! NoFallback.cli_dest = Some b ->
  foldl (consume (argparser plugin_parser)) ns argv !! NoFallback.cli_dest
    = Some (b && negb (no_fallback_given argv)).
Proof.
  revert ns b. induction argv as [|arg argv IH]; intros ns b Hns.
  - simpl. rewrite andb_true_r. exact Hns.
  - change (foldl (consume (argparser plugin_parser)) ns (arg :: argv))
      with (foldl (consume (argparser plugin_parser))
              (consume (argparser plugin_parser) ns arg) argv).
    change (no_fallback_given (arg :: argv))
      with (takes arg NoFallback.flag || no_fallback_given argv).
    rewrite (IH _ _ (consume_fallback ns arg b Hns)).
    rewrite negb_orb, andb_assoc. reflexivity.
Qed.

Lemma cli_fallback (argv : list string) :
  cli_option argv !! NoFallback.cli_dest = Some (negb (no_fallback_given argv)).
Proof.
  unfold cli_option, parse_args.
  rewrite (foldl_consume_fallback argv _ true); [reflexivity|].
  vm_compute. reflexivity.
Qed.




(** ** The hook *)

Section HookMore.

Context `{OS}.

Implicit Types (envconfig : TestenvConfig) (s : state) (r : spawn).

(** Every call, with the three launches it may make named. *)
Lemma hook_run envconfig s :
  exists r1 w1 r2 w2 r3 w3,
    popen (which_cmd envconfig (os s)) (os s) = (r1, w1)
    /\ popen (install_cmd envconfig w1) w1 = (r2, w2)
    /\ popen (which_cmd envconfig w2) w2 = (r3, w3).
Proof.
  destruct (popen (which_cmd envconfig (os s)) (os s)) as [r1 w1] eqn:H1.
  destruct (popen (install_cmd envconfig w1) w1) as [r2 w2] eqn:H2.
  destruct (popen (which_cmd envconfig w2) w2) as [r3 w3] eqn:H3.
  eauto 10.
Qed.

Lemma exit_zero_inv r :
  exit_zero r = true -> exists out err, r = Exited 0 out err.
Proof.
  destruct r as [|rc out err]; simpl; [discriminate|].
  intros Hz. apply Z.eqb_eq in Hz. subst rc. eauto.
Qed.

Ltac name_launches envconfig s :=
  let r1 := fresh "r1" in let w1 := fresh "w1" in
  let r2 := fresh "r2" in let w2 := fresh "w2" in
  let r3 := fresh "r3" in let w3 := fresh "w3" in
  let H1 := fresh "H1" in let H2 := fresh "H2" in let H3 := fresh "H3" in
  destruct (hook_run envconfig s) as (r1 & w1 & r2 & w2 & r3 & w3 & H1 & H2 & H3);
  rewrite ?(hook_cases envconfig s _ _ _ _ _ _ H1 H2 H3);
  rewrite ?(hook_cases (with_fallback true envconfig) s _ _ _ _ _ _ H1 H2 H3);
  rewrite ?(hook_cases (with_fallback false envconfig) s _ _ _ _ _ _ H1 H2 H3);
  rewrite ?(hook_cases (with_auto_install true envconfig) s _ _ _ _ _ _ H1 H2 H3);
  rewrite ?(hook_cases (with_auto_install false envconfig) s _ _ _ _ _ _ H1 H2 H3);
  cbv zeta; rewrite ?no_executable_spec;
  simpl tox_pyenv_fallback; simpl tox_pyenv_auto_install.

Ltac zero_exit r E :=
  let out := fresh "out" in let err := fresh "err" in
  destruct (exit_zero r) eqn:E;
  [destruct (exit_zero_inv r E) as (out & err & ->); simpl return_out_strip|].

(** Whatever path the hook returns is some stdout, stripped. *)
Lemma hook_found_stripped envconfig s p :
  fst (tox_get_python_executable envconfig s) = Return (Some p) ->
  exists out, p = Str.strip out.
Proof.
  name_launches envconfig s.
  zero_exit r1 E1; [intros [= <-]; eauto|].
  destruct (tox_pyenv_auto_install envconfig), (tox_pyenv_fallback envconfig);
    try discriminate;
    destruct (retry_wanted r2); try discriminate;
    (zero_exit r3 E3; [intros [= <-]; eauto|discriminate]).
Qed.



(** X4: a path is returned only for a [which] that exited with code 0:
    that [which] is the last command handed to [Popen], the path is its
    stripped stdout, and the world is left as that process left it. *)
Theorem found_from_zero_exit envconfig s p :
  fst (tox_get_python_executable envconfig s) = Found p ->
  exists w out err w',
    last (spawned (snd (tox_get_python_executable envconfig s)))
      = Some (which_cmd envconfig w)
    /\ popen (which_cmd envconfig w) w = (Exited 0 out err, w')
    /\ p = Str.strip out
    /\ os (snd (tox_get_python_executable envconfig s)) = w'.
Proof.
  unfold Found. name_launches envconfig s.
  zero_exit r1 E1.
  { intros [= <-]. exists (os s), out, err, w1. simpl.
    rewrite last_snoc. auto. }
  destruct (tox_pyenv_auto_install envconfig), (tox_pyenv_fallback envconfig);
    try discriminate;
    destruct (retry_wanted r2); try discriminate;
    (zero_exit r3 E3; [|discriminate]);
    intros [= <-]; exists w2, out, err, w3; simpl; rewrite last_snoc; auto.
Qed.

(** X5: a returned path has no white space at either end. *)
Theorem found_path_trimmed envconfig s p :
  fst (tox_get_python_executable envconfig s) = Found p -> trimmed p.
Proof.
  intros Hp. destruct (hook_found_stripped envconfig s p Hp) as (out & ->).
  apply strip_trimmed.
Qed.

(** X6: when the first [which] exits with code 0 and its stdout has no
    white space at either end, the stdout is returned as it is. *)
Theorem trimmed_stdout_returned_unchanged envconfig s out err w :
  popen (which_cmd envconfig (os s)) (os s) = (Exited 0 out err, w) ->
  trimmed out ->
  fst (tox_get_python_executable envconfig s) = Found out.
Proof.
  intros Hp Htrim.
  unfold tox_get_python_executable, find_using_pyenv, mbind, M_bind.
  rewrite (run_pyenv_spec _ _ _ _ _ _ _ Hp). simpl.
  rewrite (strip_fixed out Htrim). reflexivity.
Qed.

(** X7: with auto-install off exactly one command is handed to [Popen],
    the [which], however the call ends. *)
Theorem no_auto_install_single_launch envconfig s :
  tox_pyenv_auto_install envconfig = false ->
  spawned (snd (tox_get_python_executable envconfig s))
    = spawned s ++ [which_cmd envconfig (os s)].
Proof.
  intros Hauto. name_launches envconfig s. rewrite Hauto.
  destruct (exit_zero r1), (tox_pyenv_fallback envconfig); reflexivity.
Qed.

(** X8: the commands of a call, in full: the [which]; then the install,
    if the [which] did not exit with code 0 and auto-install is on; then
    the second [which], if the install was launched and left an empty
    stderr.  Each runs in the world the one before left. *)
Theorem spawned_trace envconfig s :
  let l1 := popen (which_cmd envconfig (os s)) (os s) in
  let l2 := popen (install_cmd envconfig l1.2) l1.2 in
  spawned (snd (tox_get_python_executable envconfig s))
    = spawned s
      ++ which_cmd envconfig (os s)
         :: (if exit_zero l1.1 || negb (tox_pyenv_auto_install envconfig)
             then []
             else install_cmd envconfig l1.2
                  :: (if retry_wanted l2.1
                      then [which_cmd envconfig l2.2]
                      else [])).
Proof.
  name_launches envconfig s. rewrite H1. simpl. rewrite H2. simpl.
  destruct (exit_zero r1); [reflexivity|].
  destruct (tox_pyenv_auto_install envconfig), (tox_pyenv_fallback envconfig);
    simpl; try reflexivity;
    destruct (retry_wanted r2); simpl; rewrite <- ?app_assoc; try reflexivity;
    destruct (exit_zero r3); simpl; rewrite <- ?app_assoc; reflexivity.
Qed.

Lemma pyenv_executable_spec (found : option LocalPath) :
  str_or (getattr_strpath found (lit "pyenv")) (lit "pyenv")
    = pyenv_executable found.
Proof. destruct found; reflexivity. Qed.

(** X9: the command [run_pyenv] builds, returns and hands to [Popen] is
    the executable, the sub-command and [basepython].  The executable is
    the [strpath] found on the PATH, or the bare [pyenv] when nothing is
    found or the [strpath] is empty; it is never the empty string. *)
Theorem run_pyenv_command envconfig (command e l : str) s :
  let cmd := [pyenv_executable (sysfind (lit "pyenv") (os s)); command;
              basepython envconfig] in
  (run_pyenv envconfig command e l s).1.2 = cmd
  /\ last (spawned (run_pyenv envconfig command e l s).2) = Some cmd
  /\ pyenv_executable (sysfind (lit "pyenv") (os s)) <> [].
Proof.
  destruct (popen (pyenv_cmd envconfig command (os s)) (os s)) as [r w] eqn:Hp.
  rewrite (run_pyenv_spec _ _ e l _ _ _ Hp). simpl.
  unfold pyenv_cmd. rewrite pyenv_executable_spec, last_snoc.
  repeat split.
  destruct (sysfind (lit "pyenv") (os s)) as [[path]|]; simpl; [|discriminate].
  destruct path; simpl; discriminate.
Qed.

(** X10: when the hook returns [None], the last log record is the debug
    record of the fallback; it carries the last command handed to [Popen],
    joined by spaces, and the very message that the same call raises with
    fallback off. *)
Theorem deferred_logs_what_would_be_raised envconfig s :
  fst (tox_get_python_executable envconfig s) = Deferred ->
  exists cmd err,
    last (spawned (snd (tox_get_python_executable envconfig s))) = Some cmd
    /\ last (records (snd (tox_get_python_executable envconfig s)))
         = Some {| levelname := DEBUG; msg := fallback_format;
                   args := [join_space cmd; err] |}
    /\ fst (tox_get_python_executable (with_fallback false envconfig) s)
         = Raise (PyenvWhichFailed err).
Proof.
  unfold Deferred. name_launches envconfig s.
  zero_exit r1 E1; [discriminate|].
  destruct (tox_pyenv_fallback envconfig).
  - destruct (tox_pyenv_auto_install envconfig);
      [destruct (retry_wanted r2); [zero_exit r3 E3; [discriminate|]|]|];
      intros _; eexists _, _; simpl; rewrite !last_snoc; repeat split.
  - destruct (tox_pyenv_auto_install envconfig);
      [destruct (retry_wanted r2); [zero_exit r3 E3|]|]; discriminate.
Qed.

Lemma after_launch_records s cmd r w warn :
  records (after_launch s cmd r w warn) = records s ++ warned r warn.
Proof. destruct r; simpl; rewrite ?app_nil_r; reflexivity. Qed.

Lemma after_launch_spawned s cmd r w warn :
  spawned (after_launch s cmd r w warn) = spawned s ++ [cmd].
Proof. reflexivity. Qed.

Lemma warned_warning r (warn : LogRecord) :
  levelname warn = WARNING ->
  Forall (fun x => levelname x = WARNING) (warned r warn).
Proof. intros Hw. destruct r; repeat constructor; exact Hw. Qed.

Lemma warned_length r (warn : LogRecord) : (length (warned r warn) <= 1)%nat.
Proof. destruct r; simpl; lia. Qed.

Ltac log_case :=
  cbn [fst snd records spawned];
  rewrite ?after_launch_records, ?after_launch_spawned, ?app_nil_r;
  split; [rewrite <- ?app_assoc; reflexivity|];
  split; [repeat apply Forall_app_2; try apply Forall_nil_2;
          apply warned_warning; reflexivity|];
  split; [rewrite ?length_app; simpl length;
          repeat match goal with
                 | |- context [length (warned ?r ?w)] =>
                     lazymatch goal with
                     | _ : (length (warned r w) <= 1)%nat |- _ => fail
                     | _ => pose proof (warned_length r w)
                     end
                 end; lia|];
  try reflexivity; eexists; split; reflexivity.

(** X11: what a call adds to the log is at most one warning per launch
    that raised [OSError], and after them the debug record of the fallback
    exactly when the call returns [None]. *)
Theorem log_records_added envconfig s :
  exists warnings tail,
    records (snd (tox_get_python_executable envconfig s))
      = records s ++ warnings ++ tail
    /\ Forall (fun x => levelname x = WARNING) warnings
    /\ (length warnings
        <= length (spawned (snd (tox_get_python_executable envconfig s)))
           - length (spawned s))%nat
    /\ match fst (tox_get_python_executable envconfig s) with
       | Return None => exists d, tail = [d] /\ levelname d = DEBUG
       | _ => tail = []
       end.
Proof.
  name_launches envconfig s.
  destruct (exit_zero r1) eqn:E1.
  { destruct (exit_zero_inv r1 E1) as (out & err & ->).
    exists [], []. log_case. }
  destruct (tox_pyenv_auto_install envconfig).
  - destruct (retry_wanted r2).
    + exists (warned r1 which_warning ++ warned r2 (install_warning envconfig)
              ++ warned r3 which_warning).
      destruct (exit_zero r3) eqn:E3.
      { destruct (exit_zero_inv r3 E3) as (out & err & ->).
        exists []. log_case. }
      destruct (tox_pyenv_fallback envconfig);
        [exists [fallback_record (which_cmd envconfig w2)
                   (err_of command_not_found r3)]
        | exists []]; log_case.
    + exists (warned r1 which_warning ++ warned r2 (install_warning envconfig)).
      destruct (tox_pyenv_fallback envconfig);
        [exists [fallback_record (install_cmd envconfig w1)
                   (err_of install_failed r2)]
        | exists []]; log_case.
  - exists (warned r1 which_warning).
    destruct (tox_pyenv_fallback envconfig);
      [exists [fallback_record (which_cmd envconfig (os s))
                 (err_of command_not_found r1)]
      | exists []]; log_case.
Qed.

(** X12: the fallback flag changes nothing about the processes: the same
    commands are handed to [Popen], the world is left the same, and a path
    is returned with the flag one way exactly when it is with the other. *)
Theorem fallback_flag_leaves_processes_alone envconfig s (b : bool) :
  spawned (snd (tox_get_python_executable (with_fallback b envconfig) s))
    = spawned (snd (tox_get_python_executable envconfig s))
  /\ os (snd (tox_get_python_executable (with_fallback b envconfig) s))
       = os (snd (tox_get_python_executable envconfig s))
  /\ forall p,
       fst (tox_get_python_executable (with_fallback b envconfig) s) = Found p
       <-> fst (tox_get_python_executable envconfig s) = Found p.
Proof.
  unfold Found. destruct b; name_launches envconfig s;
    (destruct (exit_zero r1); [repeat split; auto|]);
    destruct (tox_pyenv_auto_install envconfig), (tox_pyenv_fallback envconfig);
    try (repeat split; auto; discriminate);
    destruct (retry_wanted r2);
    try (repeat split; auto; discriminate);
    destruct (exit_zero r3); repeat split; auto; discriminate.
Qed.

(** X13: switching auto-install on changes nothing for a call that
    returns a path with auto-install off: same result, same commands, same
    log. *)
Theorem auto_install_keeps_success envconfig s p :
  fst (tox_get_python_executable (with_auto_install false envconfig) s)
    = Found p ->
  tox_get_python_executable (with_auto_install true envconfig) s
    = tox_get_python_executable (with_auto_install false envconfig) s.
Proof.
  unfold Found. name_launches envconfig s.
  destruct (exit_zero r1); [reflexivity|].
  destruct (tox_pyenv_fallback envconfig); discriminate.
Qed.


(** X17: when the first [which] exits with code 0, the path returned is
    its stdout without a run of white space at the front and one at the
    back; nothing else is removed or changed. *)
Theorem found_path_inside_stdout envconfig s out err w :
  popen (which_cmd envconfig (os s)) (os s) = (Exited 0 out err, w) ->
  exists p pre post,
    fst (tox_get_python_executable envconfig s) = Found p
    /\ out = pre ++ p ++ post
    /\ Str.all_space pre = true /\ Str.all_space post = true.
Proof.
  intros Hp. destruct (strip_decompose out) as (pre & post & Hout & Hpre & Hpost).
  exists (Str.strip out), pre, post.
  unfold tox_get_python_executable, find_using_pyenv, mbind, M_bind.
  rewrite (run_pyenv_spec _ _ _ _ _ _ _ Hp). auto.
Qed.

End HookMore.

(** ** Further runs on scripted worlds *)



Lemma found_from_zero_exit_witness :
  exists (w : scripted) out err (w' : scripted),
    last (spawned (snd (hook (py391 true false)
                          (script (Some shim_path)
                             [not_installed; quiet_failed_install; found391]))))
      = Some (which_cmd (H := ScriptedOS) (py391 true false) w)
    /\ scripted_popen (which_cmd (H := ScriptedOS) (py391 true false) w) w
         = (Exited 0 out err, w')
    /\ python391 = Str.strip out
    /\ os (snd (hook (py391 true false)
                  (script (Some shim_path)
                     [not_installed; quiet_failed_install; found391]))) = w'.
Proof.
  apply (found_from_zero_exit (H := ScriptedOS) (py391 true false)
           (script (Some shim_path)
              [not_installed; quiet_failed_install; found391])
           python391).
  reflexivity.
Defined.

Lemma found_path_trimmed_witness : trimmed python391.
Proof.
  apply (found_path_trimmed (H := ScriptedOS) (py391 false false)
           (script (Some shim_path) [found391]) python391).
  reflexivity.
Defined.

Lemma trimmed_stdout_returned_unchanged_witness :
  fst (hook (py391 false false) (script (Some shim_path) [Exited 0 python391 []]))
    = Found python391.
Proof.
  apply (trimmed_stdout_returned_unchanged (H := ScriptedOS) (py391 false false)
           (script (Some shim_path) [Exited 0 python391 []])
           python391 [] (used_up (Some shim_path)) eq_refl).
  split; intros c; vm_compute; intros [= <-]; reflexivity.
Defined.

Lemma no_auto_install_single_launch_witness :
  spawned (snd (hook (py391 false true) (script (Some shim_path) [not_installed])))
    = [pyenv391 "which"].
Proof.
  apply (no_auto_install_single_launch (H := ScriptedOS) (py391 false true)
           (script (Some shim_path) [not_installed]) eq_refl).
Defined.

Lemma deferred_logs_what_would_be_raised_witness :
  exists cmd err,
    last (spawned (snd (hook (py391 false true)
                          (script (Some shim_path) [not_installed])))) = Some cmd
    /\ last (records (snd (hook (py391 false true)
                             (script (Some shim_path) [not_installed]))))
         = Some {| levelname := DEBUG; msg := fallback_format;
                   args := [join_space cmd; err] |}
    /\ fst (hook (with_fallback false (py391 false true))
              (script (Some shim_path) [not_installed]))
         = Raise (PyenvWhichFailed err).
Proof.
  apply (deferred_logs_what_would_be_raised (H := ScriptedOS) (py391 false true)
           (script (Some shim_path) [not_installed]) eq_refl).
Defined.

Lemma auto_install_keeps_success_witness :
  hook (with_auto_install true (py391 false false))
    (script (Some shim_path) [found391])
  = hook (with_auto_install false (py391 false false))
      (script (Some shim_path) [found391]).
Proof.
  apply (auto_install_keeps_success (H := ScriptedOS) (py391 false false)
           (script (Some shim_path) [found391]) python391).
  reflexivity.
Defined.


Lemma found_path_inside_stdout_witness :
  exists p pre post,
    fst (hook (py391 false false) (script (Some shim_path) [found391])) = Found p
    /\ python391 ++ [10%N] = pre ++ p ++ post
    /\ Str.all_space pre = true /\ Str.all_space post = true.
Proof.
  apply (found_path_inside_stdout (H := ScriptedOS) (py391 false false)
           (script (Some shim_path) [found391])
           (python391 ++ [10%N]) [] (used_up (Some shim_path)) eq_refl).
Defined.
